(** * threejs-tutorial: the scene set-up and the per-frame animation of app.js

    A shallow embedding of [src/app.js].  The script keeps four module-level
    bindings ([scene], [camera], [model], [renderer]), builds a Three.js scene
    graph in [init], registers [animate] as the renderer's animation loop and
    hands a completion callback to the glTF loader.

    - A JavaScript Number is an IEEE 754 binary64 value: [float], with the
      primitive [+], [-] and [/].
    - Three.js objects are mutable and shared ([model] is the very node that
      [scene.add] puts among the scene's children), so objects live in a
      store and are named by references.
    - A function of the script is a computation in a state-and-exception
      monad over the globals, the store and the host's pending work.
    - The state also keeps, in order, the requests the script has made to
      Three.js and to the page (constructors, loads, [add], the renderer's
      set-up), so that the order of independent effects can be stated.
    - The host (browser event loop, loader, animation driver) is a list of
      events dispatched one after the other. *)

From Stdlib Require Import ZArith List Lia Floats String.
From stdpp Require Import base option list.
Import ListNotations.

Local Open Scope float_scope.

(** ** Three.js data *)

(** A reference into the store of objects. *)
Abbreviation Ref := nat (only parsing).

Record Vector3 := mkVector3 { v_x : float; v_y : float; v_z : float }.

(** [Vector3.set(x, y, z)] overwrites the three components. *)
Definition Vector3_set (x y z : float) (_ : Vector3) : Vector3 := mkVector3 x y z.

Record Euler := mkEuler { e_x : float; e_y : float; e_z : float }.

Inductive Texture := TextureOf (url : string).

(** What an object is beyond its transform.  A colour is the hexadecimal
    value its constructor was given. *)
Inductive Payload :=
| Scene (background : option Texture)
| AmbientLight (color : Z) (intensity : float)
| DirectionalLight (color : Z) (intensity : float)
| PerspectiveCamera (fov aspect near far : float)
| Group
| Mesh.

Record Object3D := mkObject3D {
  parent : option Ref;
  children : list Ref;
  position : Vector3;
  rotation : Euler;
  scale : Vector3;
  payload : Payload
}.

(** A frame handed to the GPU: which scene and camera were drawn, and the
    store as it was at that moment. *)
Record Frame := mkFrame {
  f_scene : Ref;
  f_camera : Ref;
  f_store : list Object3D
}.

Inductive Callback := cb_animate.

Record WebGLRenderer := mkRenderer {
  antialias : bool;
  size : option (float * float);
  animationLoop : option Callback;
  frames : list Frame
}.

Inductive Element := Canvas.

(** A request the script makes to Three.js or to the page, other than a
    plain write to an object's transform (kept in the store) and a draw
    (kept in the renderer's frames). *)
Inductive Call :=
| call_new (p : Payload)                    (* new THREE.Scene(), ... *)
| call_TextureLoader_load (url : string)    (* new THREE.TextureLoader().load(url) *)
| call_add (this object : nat)              (* this.add(object) *)
| call_GLTFLoader_load (url : string)       (* new GLTFLoader().load(url, ...) *)
| call_WebGLRenderer (antialias : bool)     (* new THREE.WebGLRenderer({antialias}) *)
| call_setSize (width height : float)       (* renderer.setSize(width, height) *)
| call_setAnimationLoop (cb : Callback)     (* renderer.setAnimationLoop(cb) *)
| call_appendChild (e : Element).           (* document.body.appendChild(e) *)

(** ** Program state *)

Record State := mkState {
  (* let scene; let camera; let model; let renderer; *)
  scene : option Ref;
  camera : option Ref;
  model : option Ref;
  renderer : option WebGLRenderer;
  (* every Three.js object allocated so far; a reference is an index *)
  store : list Object3D;
  (* glTF loads that were started and have not completed *)
  pending : list string;
  (* document.body *)
  body : list Element;
  (* the requests made so far, oldest first *)
  calls : list Call
}.

Definition initial : State :=
  mkState None None None None [] [] [] [].

(** ** The monad of the script: state and exceptions *)

Inductive Exn := TypeError (what : string).

(** A call either returns or throws; the mutations made before a throw
    stay. *)
Inductive Result (A : Type) :=
| Ok (a : A) (s : State)
| Throw (e : Exn) (s : State).
Arguments Ok {A} a s.
Arguments Throw {A} e s.

Definition final {A} (r : Result A) : State :=
  match r with
  | Ok _ s => s
  | Throw _ s => s
  end.

Definition JS (A : Type) : Type := State -> Result A.

Definition ret {A} (a : A) : JS A := fun s => Ok a s.

Definition bind {A B} (m : JS A) (k : A -> JS B) : JS B :=
  fun s => match m s with
           | Ok a s' => k a s'
           | Throw e s' => Throw e s'
           end.

Definition throw {A} (e : Exn) : JS A := fun s => Throw e s.

Declare Scope js_scope.
Delimit Scope js_scope with js.
Notation "x <- m ;; k" := (bind m (fun x => k))
  (at level 100, m at next level, right associativity) : js_scope.
Notation "m ;; k" := (bind m (fun _ => k))
  (at level 100, right associativity) : js_scope.
Local Open Scope js_scope.

Definition gets {A} (f : State -> A) : JS A := fun s => Ok (f s) s.
Definition modify (f : State -> State) : JS unit := fun s => Ok tt (f s).

(** Reading a property of, or calling a method on, a binding that is still
    [undefined] throws a TypeError. *)
Definition defined {A} (what : string) (f : State -> option A) : JS A :=
  fun s => match f s with
           | Some a => Ok a s
           | None => Throw (TypeError what) s
           end.

Definition set_scene (r : Ref) : JS unit :=
  modify (fun s => mkState (Some r) (camera s) (model s) (renderer s)
                           (store s) (pending s) (body s) (calls s)).
Definition set_camera (r : Ref) : JS unit :=
  modify (fun s => mkState (scene s) (Some r) (model s) (renderer s)
                           (store s) (pending s) (body s) (calls s)).
Definition set_model (r : Ref) : JS unit :=
  modify (fun s => mkState (scene s) (camera s) (Some r) (renderer s)
                           (store s) (pending s) (body s) (calls s)).
Definition set_renderer (rd : WebGLRenderer) : JS unit :=
  modify (fun s => mkState (scene s) (camera s) (model s) (Some rd)
                           (store s) (pending s) (body s) (calls s)).
Definition set_store (h : list Object3D) : JS unit :=
  modify (fun s => mkState (scene s) (camera s) (model s) (renderer s)
                           h (pending s) (body s) (calls s)).
Definition set_pending (p : list string) : JS unit :=
  modify (fun s => mkState (scene s) (camera s) (model s) (renderer s)
                           (store s) p (body s) (calls s)).
Definition set_body (b : list Element) : JS unit :=
  modify (fun s => mkState (scene s) (camera s) (model s) (renderer s)
                           (store s) (pending s) b (calls s)).

(** Recording a request. *)
Definition log (c : Call) : JS unit :=
  modify (fun s => mkState (scene s) (camera s) (model s) (renderer s)
                           (store s) (pending s) (body s) (calls s ++ [c])).

(** ** Three.js primitives the script calls *)

(** [new X(...)]: the object gets the next free reference. *)
Definition new (o : Object3D) : JS Ref :=
  log (call_new (payload o)) ;;
  h <- gets store ;;
  set_store (h ++ [o]) ;;
  ret (length h).

(** Mutating the object a reference names. *)
Definition update (r : Ref) (f : Object3D -> Object3D) : JS unit :=
  h <- gets store ;;
  set_store (alter f r h).

(** A fresh [Object3D]: no parent, no children, position (0,0,0), rotation
    (0,0,0), scale (1,1,1). *)
Definition Object3D_default (p : Payload) : Object3D :=
  mkObject3D None [] (mkVector3 0 0 0) (mkEuler 0 0 0) (mkVector3 1 1 1) p.

Definition set_position (x y z : float) (o : Object3D) : Object3D :=
  mkObject3D (parent o) (children o) (Vector3_set x y z (position o))
             (rotation o) (scale o) (payload o).
Definition set_scale (x y z : float) (o : Object3D) : Object3D :=
  mkObject3D (parent o) (children o) (position o)
             (rotation o) (Vector3_set x y z (scale o)) (payload o).
Definition set_rotation_x (a : float) (o : Object3D) : Object3D :=
  mkObject3D (parent o) (children o) (position o)
             (mkEuler a (e_y (rotation o)) (e_z (rotation o)))
             (scale o) (payload o).
Definition set_rotation_y (a : float) (o : Object3D) : Object3D :=
  mkObject3D (parent o) (children o) (position o)
             (mkEuler (e_x (rotation o)) a (e_z (rotation o)))
             (scale o) (payload o).
Definition set_parent (p : option Ref) (o : Object3D) : Object3D :=
  mkObject3D p (children o) (position o) (rotation o) (scale o) (payload o).
Definition set_children (c : list Ref) (o : Object3D) : Object3D :=
  mkObject3D (parent o) c (position o) (rotation o) (scale o) (payload o).
Definition set_payload (p : Payload) (o : Object3D) : Object3D :=
  mkObject3D (parent o) (children o) (position o) (rotation o) (scale o) p.

Definition remove_ref (r : Ref) (l : list Ref) : list Ref :=
  List.filter (fun x => negb (Nat.eqb x r)) l.

(** [this.add(object)]: adding an object to itself is refused; otherwise the
    object leaves its former parent, gets [this] as parent and is pushed at
    the end of [this.children]. *)
Definition Object3D_add (this object : Ref) : JS unit :=
  log (call_add this object) ;;
  if decide (object = this) then ret tt
  else
    h <- gets store ;;
    match h !! object with
    | None => ret tt
    | Some o =>
        match parent o with
        | Some p => update p (fun po => set_children (remove_ref object (children po)) po)
        | None => ret tt
        end ;;
        update object (set_parent (Some this)) ;;
        update this (fun t => set_children (children t ++ [object]) t)
    end.

Definition is_camera (o : Object3D) : bool :=
  match payload o with
  | PerspectiveCamera _ _ _ _ => true
  | _ => false
  end.

(** [renderer.render(scene, camera)]: a camera argument that is not a camera
    is reported and nothing is drawn; reading a property of an [undefined]
    scene or camera throws; otherwise one frame is drawn. *)
Definition WebGLRenderer_render (sc cam : option Ref) (rd : WebGLRenderer) : JS unit :=
  h <- gets store ;;
  match cam with
  | Some cr =>
      if from_option is_camera false (h !! cr) then
        match sc with
        | Some sr =>
            set_renderer (mkRenderer (antialias rd) (size rd) (animationLoop rd)
                                     (frames rd ++ [mkFrame sr cr h]))
        | None => throw (TypeError "scene is undefined")
        end
      else ret tt
  | None =>
      match sc with
      | Some _ => throw (TypeError "camera is undefined")
      | None => throw (TypeError "scene is undefined")
      end
  end.

(** The glTF loader, once the file has arrived: the root of the asset is a
    fresh group with the default transform whose children are the nodes of
    the file. *)
Definition GLTFLoader_parse (nodes : list Object3D) : JS Ref :=
  h <- gets store ;;
  let root := length h in
  set_store (h ++ set_children (seq (S root) (length nodes)) (Object3D_default Group)
               :: map (set_parent (Some root)) nodes) ;;
  ret root.

(** ** The script *)

(** The browser window the script is loaded in. *)
Record Window := mkWindow { innerWidth : float; innerHeight : float }.

Section App.

Variable window : Window.

(* Window dimensions, read once when the script starts; [init] runs in the
   same turn, so they are the dimensions at configuration time. *)
Definition WIDTH : float := innerWidth window.
Definition HEIGHT : float := innerHeight window.

(* Default Camera parameters in documentation *)
Definition FOV : float := 45.
Definition NEAR : float := 1.
Definition FAR : float := 1000.

(* Camera location positioning *)
Definition CAMERA_X : float := 0.
Definition CAMERA_Y : float := 10.
Definition CAMERA_Z : float := 17.

(* 3D Model positioning *)
Definition MODEL_X : float := 0.
Definition MODEL_Y : float := 10.
Definition MODEL_Z : float := 10.
Definition MODEL_SCALE : float := 0.5.

(* Scene object paths *)
Definition BACKGROUND_IMG_PATH : string := "materials/space.jpg".
Definition MODEL_GLTF_PATH : string := "materials/shine.gltf".

(* Light properties *)
Definition LIGHT_INTENSITY : float := 5.
Definition AMBIENT_COLOR : Z := 0xffffff.
Definition DIRECTIONAL_COLOR : Z := 0xffd700.

(* Animation properties *)
Definition ROTATE_X_DELAY : float := 2000.
Definition ROTATE_Y_DELAY : float := 1000.

Definition createScene : JS unit :=
  sc <- new (Object3D_default (Scene None)) ;;
  set_scene sc ;;
  log (call_TextureLoader_load BACKGROUND_IMG_PATH) ;;
  let texture := TextureOf BACKGROUND_IMG_PATH in
  sc <- defined "scene" scene ;;
  update sc (set_payload (Scene (Some texture))).

Definition configureCamera : JS unit :=
  cam <- new (Object3D_default (PerspectiveCamera FOV (WIDTH / HEIGHT) NEAR FAR)) ;;
  set_camera cam ;;
  cam <- defined "camera" camera ;;
  update cam (set_position CAMERA_X CAMERA_Y CAMERA_Z).

(** Returns the scene (the value of the binding). *)
Definition setUpLight : JS Ref :=
  ambientLight <- new (Object3D_default (AmbientLight AMBIENT_COLOR LIGHT_INTENSITY)) ;;
  update ambientLight (set_position MODEL_X MODEL_Y MODEL_Z) ;;
  sc <- defined "scene" scene ;;
  Object3D_add sc ambientLight ;;

  directionalLight <- new (Object3D_default (DirectionalLight DIRECTIONAL_COLOR LIGHT_INTENSITY)) ;;
  update directionalLight (set_position MODEL_X MODEL_Y (MODEL_Z + 1)) ;;
  sc <- defined "scene" scene ;;
  Object3D_add sc directionalLight ;;

  directionalLight2 <- new (Object3D_default (DirectionalLight DIRECTIONAL_COLOR LIGHT_INTENSITY)) ;;
  update directionalLight2 (set_position MODEL_X MODEL_Y (MODEL_Z - 1)) ;;
  sc <- defined "scene" scene ;;
  Object3D_add sc directionalLight2 ;;
  defined "scene" scene.

(** The function handed to [loader.load]; [gltf_scene] is [gltf.scene]. *)
Definition addModel_onLoad (gltf_scene : Ref) : JS unit :=
  set_model gltf_scene ;;
  m <- defined "model" model ;;
  update m (set_scale MODEL_SCALE MODEL_SCALE MODEL_SCALE) ;;
  m <- defined "model" model ;;
  update m (set_position MODEL_X MODEL_Y MODEL_Z) ;;
  sc <- defined "scene" scene ;;
  m <- gets model ;;
  match m with
  | Some m => Object3D_add sc m
  | None => ret tt
  end.

(** [loader.load] only starts the download and returns. *)
Definition addModel : JS unit :=
  log (call_GLTFLoader_load MODEL_GLTF_PATH) ;;
  p <- gets pending ;;
  set_pending (p ++ [MODEL_GLTF_PATH]).

Definition animate (time : float) : JS unit :=
  m <- gets model ;;
  match m with
  | Some m =>
      (* [model.rotation] is an Euler object, which is truthy *)
      update m (set_rotation_x (time / ROTATE_X_DELAY)) ;;
      update m (set_rotation_y (time / ROTATE_Y_DELAY))
  | None => ret tt
  end ;;
  (* Renders the animated frame *)
  rd <- defined "renderer" renderer ;;
  sc <- gets scene ;;
  cam <- gets camera ;;
  WebGLRenderer_render sc cam rd.

Definition renderScene : JS unit :=
  log (call_WebGLRenderer true) ;;
  set_renderer (mkRenderer true None None []) ;;
  rd <- defined "renderer" renderer ;;
  log (call_setSize WIDTH HEIGHT) ;;
  set_renderer (mkRenderer (antialias rd) (Some (WIDTH, HEIGHT)) (animationLoop rd) (frames rd)) ;;
  rd <- defined "renderer" renderer ;;
  log (call_setAnimationLoop cb_animate) ;;
  set_renderer (mkRenderer (antialias rd) (size rd) (Some cb_animate) (frames rd)) ;;
  b <- gets body ;;
  _ <- defined "renderer" renderer ;;
  log (call_appendChild Canvas) ;;
  set_body (b ++ [Canvas]).

Definition init : JS unit :=
  createScene ;;
  configureCamera ;;
  _ <- setUpLight ;;
  addModel ;;
  renderScene.

(** ** The host *)

Inductive Event :=
| AnimationFrame (time : float)
| GLTFLoaded (nodes : list Object3D).

(** The animation driver calls the registered loop with the frame's time;
    the loader calls the completion callback of the oldest pending load with
    the parsed asset.  An event nobody waits for does nothing, and an
    exception no handler catches ends the run. *)
Definition dispatch (e : Event) : JS unit :=
  match e with
  | AnimationFrame time =>
      rd <- gets renderer ;;
      match rd with
      | Some rd =>
          match animationLoop rd with
          | Some cb_animate => animate time
          | None => ret tt
          end
      | None => ret tt
      end
  | GLTFLoaded nodes =>
      p <- gets pending ;;
      match p with
      | [] => ret tt
      | _ :: rest =>
          set_pending rest ;;
          root <- GLTFLoader_parse nodes ;;
          addModel_onLoad root
      end
  end.

Fixpoint run (es : list Event) : JS unit :=
  match es with
  | [] => ret tt
  | e :: es => dispatch e ;; run es
  end.

(** The whole program: the script, then the events of the host. *)
Definition program (es : list Event) : JS unit := init ;; run es.

End App.

(** ** Observations on a state *)

Definition object_of (h : list Object3D) (r : option Ref) : option Object3D :=
  match r with
  | Some r => h !! r
  | None => None
  end.

Definition the_model (s : State) : option Object3D := object_of (store s) (model s).
Definition the_camera (s : State) : option Object3D := object_of (store s) (camera s).

Definition model_rotation (s : State) : option Euler := rotation <$> the_model s.

Definition is_light (o : Object3D) : bool :=
  match payload o with
  | AmbientLight _ _ | DirectionalLight _ _ => true
  | _ => false
  end.

Definition children_in (h : list Object3D) (sc : Ref) : list Ref :=
  from_option children [] (h !! sc).

(** The lights among the children of a scene, in insertion order. *)
Definition lights_in (h : list Object3D) (sc : Ref) : list Object3D :=
  List.filter is_light (omap (fun r => h !! r) (children_in h sc)).

Definition scene_children (s : State) : list Ref :=
  match scene s with
  | Some sc => children_in (store s) sc
  | None => []
  end.

Definition scene_lights (s : State) : list Object3D :=
  match scene s with
  | Some sc => lights_in (store s) sc
  | None => []
  end.

Definition light_color (o : Object3D) : option Z :=
  match payload o with
  | AmbientLight c _ | DirectionalLight c _ => Some c
  | _ => None
  end.

Definition light_intensity (o : Object3D) : option float :=
  match payload o with
  | AmbientLight _ i | DirectionalLight _ i => Some i
  | _ => None
  end.

(** The frames drawn so far. *)
Definition drawn (s : State) : list Frame := from_option frames [] (renderer s).

Definition is_load (e : Event) : bool :=
  match e with
  | GLTFLoaded _ => true
  | AnimationFrame _ => false
  end.

(** The animation frames among the events of the host. *)
Definition frame_events (es : list Event) : list Event :=
  List.filter (fun e => negb (is_load e)) es.

(** ** The states the program goes through *)

Definition anchor : Vector3 := mkVector3 MODEL_X MODEL_Y MODEL_Z.

Definition scene_object (cs : list Ref) : Object3D :=
  mkObject3D None cs (mkVector3 0 0 0) (mkEuler 0 0 0) (mkVector3 1 1 1)
             (Scene (Some (TextureOf BACKGROUND_IMG_PATH))).

Definition camera_object (w : Window) : Object3D :=
  mkObject3D None [] (mkVector3 CAMERA_X CAMERA_Y CAMERA_Z) (mkEuler 0 0 0)
             (mkVector3 1 1 1)
             (PerspectiveCamera FOV (innerWidth w / innerHeight w) NEAR FAR).

Definition light_object (sc : Ref) (z : float) (p : Payload) : Object3D :=
  mkObject3D (Some sc) [] (mkVector3 MODEL_X MODEL_Y z) (mkEuler 0 0 0)
             (mkVector3 1 1 1) p.

Definition ambientLight : Object3D :=
  light_object 0 MODEL_Z (AmbientLight AMBIENT_COLOR LIGHT_INTENSITY).
Definition directionalLight : Object3D :=
  light_object 0 (MODEL_Z + 1) (DirectionalLight DIRECTIONAL_COLOR LIGHT_INTENSITY).
Definition directionalLight2 : Object3D :=
  light_object 0 (MODEL_Z - 1) (DirectionalLight DIRECTIONAL_COLOR LIGHT_INTENSITY).

Definition model_object (rx ry : float) (n : nat) : Object3D :=
  mkObject3D (Some 0%nat) (seq 6 n) anchor (mkEuler rx ry 0)
             (mkVector3 MODEL_SCALE MODEL_SCALE MODEL_SCALE) Group.

Definition the_renderer (w : Window) (fs : list Frame) : WebGLRenderer :=
  mkRenderer true (Some (WIDTH w, HEIGHT w)) (Some cb_animate) fs.

(** The requests each step of [init] makes, when the scene is object [sc]
    and [n] the next free reference. *)
Definition createScene_calls : list Call :=
  [call_new (Scene None); call_TextureLoader_load BACKGROUND_IMG_PATH].
Definition configureCamera_calls (w : Window) : list Call :=
  [call_new (PerspectiveCamera FOV (innerWidth w / innerHeight w) NEAR FAR)].
Definition setUpLight_calls (sc n : Ref) : list Call :=
  [call_new (AmbientLight AMBIENT_COLOR LIGHT_INTENSITY); call_add sc n;
   call_new (DirectionalLight DIRECTIONAL_COLOR LIGHT_INTENSITY); call_add sc (S n);
   call_new (DirectionalLight DIRECTIONAL_COLOR LIGHT_INTENSITY);
   call_add sc (S (S n))].
Definition addModel_calls : list Call := [call_GLTFLoader_load MODEL_GLTF_PATH].
Definition renderScene_calls (w : Window) : list Call :=
  [call_WebGLRenderer true; call_setSize (innerWidth w) (innerHeight w);
   call_setAnimationLoop cb_animate; call_appendChild Canvas].

(** The requests of [init] started with [n] objects in the store. *)
Definition init_calls (w : Window) (n : nat) : list Call :=
  createScene_calls ++ configureCamera_calls w ++ setUpLight_calls n (S (S n))
  ++ addModel_calls ++ renderScene_calls w.

(** After [init], while the model is still loading: [fs] are the frames
    drawn so far. *)
Definition loading_store (w : Window) : list Object3D :=
  [scene_object [2; 3; 4]%nat; camera_object w;
   ambientLight; directionalLight; directionalLight2].

Definition loading (w : Window) (fs : list Frame) : State :=
  mkState (Some 0%nat) (Some 1%nat) None (Some (the_renderer w fs))
          (loading_store w) [MODEL_GLTF_PATH] [Canvas] (init_calls w 0).

(** Between [setUpLight] and [addModel]. *)
Definition lit (w : Window) : State :=
  mkState (Some 0%nat) (Some 1%nat) None None (loading_store w) [] []
          (createScene_calls ++ configureCamera_calls w ++ setUpLight_calls 0 2).

(** After the load callback: the model is object 5 with the rotation
    [(rx, ry, 0)], followed by the nodes of the asset. *)
Definition loaded_store (w : Window) (rx ry : float) (nodes : list Object3D)
  : list Object3D :=
  [scene_object [2; 3; 4; 5]%nat; camera_object w;
   ambientLight; directionalLight; directionalLight2;
   model_object rx ry (length nodes)] ++ map (set_parent (Some 5%nat)) nodes.

Definition loaded (w : Window) (fs : list Frame) (rx ry : float)
    (nodes : list Object3D) : State :=
  mkState (Some 0%nat) (Some 1%nat) (Some 5%nat) (Some (the_renderer w fs))
          (loaded_store w rx ry nodes) [] [Canvas]
          (init_calls w 0 ++ [call_add 0 5]).

(** A state with another store. *)
Definition with_store (s : State) (h : list Object3D) : State :=
  mkState (scene s) (camera s) (model s) (renderer s) h (pending s) (body s)
          (calls s).

(** A state with another store and further requests made. *)
Definition with_store_calls (s : State) (h : list Object3D) (cs : list Call) : State :=
  mkState (scene s) (camera s) (model s) (renderer s) h (pending s) (body s)
          (calls s ++ cs).

Definition push_child (r : Ref) (o : Object3D) : Object3D :=
  set_children (children o ++ [r]) o.

(** What [animate] does to the renderer: nothing when there is none;
    otherwise the same renderer with the same settings is still bound, and
    either it has the frames it had or one more, the scene and the camera
    drawn over the store as [animate] left it. *)
Definition renderer_kept (s s' : State) : Prop :=
  match renderer s, renderer s' with
  | Some rd, Some rd' =>
      antialias rd' = antialias rd /\ size rd' = size rd /\
      animationLoop rd' = animationLoop rd /\
      (frames rd' = frames rd \/
       exists sr cr, scene s = Some sr /\ camera s = Some cr /\
                     frames rd' = frames rd ++ [mkFrame sr cr (store s')])
  | None, None => True
  | _, _ => False
  end.

(** What every drawn frame shows: the scene with its three lights first,
    seen through the configured camera. *)
Definition frame_ok (w : Window) (f : Frame) : Prop :=
  f_scene f = 0%nat /\ f_camera f = 1%nat /\
  f_store f !! 1%nat = Some (camera_object w) /\
  lights_in (f_store f) (f_scene f) = [ambientLight; directionalLight; directionalLight2].

Inductive reached (w : Window) : State -> Prop :=
| reached_loading fs :
    Forall (frame_ok w) fs -> reached w (loading w fs)
| reached_loaded fs rx ry nodes :
    Forall (frame_ok w) fs -> reached w (loaded w fs rx ry nodes).

(** ** The script on these states *)

Lemma init_loading (w : Window) : init w initial = Ok tt (loading w []).
Proof. reflexivity. Qed.

Lemma setUpLight_lit (w : Window) :
  (createScene ;; configureCamera w ;; setUpLight) initial = Ok 0%nat (lit w).
Proof. reflexivity. Qed.

Lemma animate_loading (w : Window) (fs : list Frame) (time : float) :
  animate time (loading w fs)
  = Ok tt (loading w (fs ++ [mkFrame 0 1 (loading_store w)])).
Proof. reflexivity. Qed.

Lemma animate_loaded (w : Window) fs rx ry nodes (time : float) :
  animate time (loaded w fs rx ry nodes)
  = Ok tt (loaded w
             (fs ++ [mkFrame 0 1 (loaded_store w (time / ROTATE_X_DELAY)
                                               (time / ROTATE_Y_DELAY) nodes)])
             (time / ROTATE_X_DELAY) (time / ROTATE_Y_DELAY) nodes).
Proof. reflexivity. Qed.

Lemma load_loading (w : Window) fs nodes :
  dispatch (GLTFLoaded nodes) (loading w fs) = Ok tt (loaded w fs 0 0 nodes).
Proof. reflexivity. Qed.

Lemma load_loaded (w : Window) fs rx ry nodes nodes' :
  dispatch (GLTFLoaded nodes') (loaded w fs rx ry nodes)
  = Ok tt (loaded w fs rx ry nodes).
Proof. reflexivity. Qed.

Lemma frame_ok_loading (w : Window) : frame_ok w (mkFrame 0 1 (loading_store w)).
Proof. repeat split. Qed.

Lemma frame_ok_loaded (w : Window) rx ry nodes :
  frame_ok w (mkFrame 0 1 (loaded_store w rx ry nodes)).
Proof. repeat split. Qed.

Create HintDb frames.
#[local] Hint Resolve frame_ok_loading frame_ok_loaded : frames.

Lemma Forall_snoc_frame (w : Window) (fs : list Frame) (f : Frame) :
  Forall (frame_ok w) fs -> frame_ok w f -> Forall (frame_ok w) (fs ++ [f]).
Proof. intros Hfs Hf. apply Forall_app. split; [assumption | constructor; auto]. Qed.

#[local] Hint Resolve Forall_snoc_frame : frames.
#[local] Hint Constructors reached : frames.

(** [animate] on a reached state returns, stays among the reached states and
    draws one frame. *)
Lemma animate_reached (w : Window) (s : State) (time : float) :
  reached w s ->
  exists s' f, animate time s = Ok tt s' /\ reached w s' /\
               drawn s' = drawn s ++ [f] /\ frame_ok w f.
Proof.
  intros [fs Hfs | fs rx ry nodes Hfs].
  - rewrite animate_loading. eauto 8 with frames.
  - rewrite animate_loaded. eauto 8 with frames.
Qed.

Lemma dispatch_reached (w : Window) (e : Event) (s : State) :
  reached w s -> exists s', dispatch e s = Ok tt s' /\ reached w s'.
Proof.
  intros Hs. destruct e as [time | nodes].
  - destruct (animate_reached w s time Hs) as (s' & f & Ha & Hs' & _).
    exists s'. split; [| assumption].
    destruct Hs; exact Ha.
  - destruct Hs as [fs Hfs | fs rx ry nodes0 Hfs].
    + rewrite load_loading. eauto with frames.
    + rewrite load_loaded. eauto with frames.
Qed.

Lemma run_reached (w : Window) (es : list Event) (s : State) :
  reached w s -> exists s', run es s = Ok tt s' /\ reached w s'.
Proof.
  revert s. induction es as [| e es IH]; intros s Hs.
  - exists s. split; [reflexivity | assumption].
  - destruct (dispatch_reached w e s Hs) as (s1 & He & Hs1).
    destruct (IH s1 Hs1) as (s2 & Hr & Hs2).
    exists s2. split; [| assumption].
    cbn [run]. unfold bind. rewrite He. exact Hr.
Qed.

Lemma program_run (w : Window) (es : list Event) :
  program w es initial = run es (loading w []).
Proof. unfold program, bind. rewrite init_loading. reflexivity. Qed.

(** The program never throws: after any events it is in a reached state. *)
Lemma program_total (w : Window) (es : list Event) :
  exists s, program w es initial = Ok tt s /\ reached w s.
Proof.
  rewrite program_run. apply run_reached. constructor. constructor.
Qed.

Lemma program_reached (w : Window) (es : list Event) (s : State) :
  program w es initial = Ok tt s -> reached w s.
Proof.
  intros H. destruct (program_total w es) as (s' & H' & Hs').
  rewrite H in H'. injection H' as ->. assumption.
Qed.

(** The loop is registered in both kinds of state: a frame event calls
    [animate]. *)
Lemma frame_loading (w : Window) fs (time : float) :
  dispatch (AnimationFrame time) (loading w fs) = animate time (loading w fs).
Proof. reflexivity. Qed.

Lemma frame_loaded (w : Window) fs rx ry nodes (time : float) :
  dispatch (AnimationFrame time) (loaded w fs rx ry nodes)
  = animate time (loaded w fs rx ry nodes).
Proof. reflexivity. Qed.


(** Once the model is there it stays, whatever comes next. *)
Lemma run_loaded (w : Window) (es : list Event) fs rx ry nodes :
  exists fs' rx' ry', run es (loaded w fs rx ry nodes) = Ok tt (loaded w fs' rx' ry' nodes).
Proof.
  revert fs rx ry. induction es as [| [time | nodes'] es IH]; intros fs rx ry.
  - eauto.
  - cbn [run]. unfold bind. rewrite frame_loaded, animate_loaded. apply IH.
  - cbn [run]. unfold bind. rewrite load_loaded. apply IH.
Qed.

(** The model is present exactly when a load has completed. *)
Lemma run_loading (w : Window) (es : list Event) fs :
  exists s, run es (loading w fs) = Ok tt s /\
    if existsb is_load es
    then exists fs' rx ry nodes, s = loaded w fs' rx ry nodes
    else exists fs', s = loading w fs'.
Proof.
  revert fs. induction es as [| [time | nodes] es IH]; intros fs.
  - cbn. eauto.
  - cbn [run existsb is_load orb]. unfold bind.
    rewrite frame_loading, animate_loading. apply IH.
  - cbn [run existsb is_load orb]. unfold bind. rewrite load_loading.
    destruct (run_loaded w es fs 0 0 nodes) as (fs' & rx & ry & Hr).
    rewrite Hr. eauto 8.
Qed.

Lemma program_loading (w : Window) (es : list Event) (s : State) :
  program w es initial = Ok tt s ->
  if existsb is_load es
  then exists fs rx ry nodes, s = loaded w fs rx ry nodes
  else exists fs, s = loading w fs.
Proof.
  intros H. destruct (run_loading w es []) as (s' & Hr & Hs').
  rewrite program_run, Hr in H. injection H as <-. exact Hs'.
Qed.

(** ** [animate] on any state *)

(** Whatever the state, and whether or not drawing succeeds, [animate]
    changes the store only by writing the two angles into the model. *)
Lemma animate_store (s : State) (time : float) :
  store (final (animate time s)) =
  match model s with
  | Some m => alter (set_rotation_y (time / ROTATE_Y_DELAY)) m
                (alter (set_rotation_x (time / ROTATE_X_DELAY)) m (store s))
  | None => store s
  end.
Proof.
  destruct s as [sc cam m rd h p b cs].
  unfold animate, WebGLRenderer_render, update, set_store, set_renderer,
    defined, gets, modify, throw, bind, ret; cbn.
  destruct m as [m |], rd as [rd |], cam as [cr |], sc as [sr |]; cbn;
    try reflexivity;
    match goal with
    | |- context [from_option is_camera false ?x] =>
        destruct (from_option is_camera false x); reflexivity
    end.
Qed.

Lemma animate_bindings (s : State) (time : float) :
  let s' := final (animate time s) in
  scene s' = scene s /\ camera s' = camera s /\ model s' = model s.
Proof.
  destruct s as [sc cam m rd h p b cs].
  unfold animate, WebGLRenderer_render, update, set_store, set_renderer,
    defined, gets, modify, throw, bind, ret; cbn.
  destruct m as [m |], rd as [rd |], cam as [cr |], sc as [sr |]; cbn;
    try (repeat split; reflexivity);
    match goal with
    | |- context [from_option is_camera false ?x] =>
        destruct (from_option is_camera false x); repeat split; reflexivity
    end.
Qed.

(** Objects other than the model are not touched. *)
Lemma animate_elsewhere (s : State) (time : float) (r : Ref) :
  model s <> Some r ->
  store (final (animate time s)) !! r = store s !! r.
Proof.
  intros Hr. rewrite animate_store. destruct (model s) as [m |]; [| reflexivity].
  assert (m <> r) by congruence.
  rewrite !list_lookup_alter_ne by assumption. reflexivity.
Qed.

(** The model gets [time / 2000] and [time / 1000] as its X and Y angles and
    keeps everything else. *)
Lemma animate_model (s : State) (time : float) (m : Ref) (o : Object3D) :
  model s = Some m -> store s !! m = Some o ->
  store (final (animate time s)) !! m
  = Some (mkObject3D (parent o) (children o) (position o)
                     (mkEuler (time / ROTATE_X_DELAY) (time / ROTATE_Y_DELAY)
                              (e_z (rotation o)))
                     (scale o) (payload o)).
Proof.
  intros Hm Ho. rewrite animate_store, Hm.
  rewrite !list_lookup_alter_eq, Ho. reflexivity.
Qed.

Lemma reached_inv (w : Window) (s : State) :
  reached w s ->
  scene s = Some 0%nat /\ camera s = Some 1%nat /\
  the_camera s = Some (camera_object w) /\
  scene_lights s = [ambientLight; directionalLight; directionalLight2] /\
  (model s = None \/
   model s = Some 5%nat /\ exists rx ry n, store s !! 5%nat = Some (model_object rx ry n)).
Proof.
  intros [fs Hfs | fs rx ry nodes Hfs]; repeat split.
  - left. reflexivity.
  - right. split; [reflexivity |]. exists rx, ry, (length nodes). reflexivity.
Qed.

(** ** The primitives and [setUpLight] on any state *)

Lemma new_eq (o : Object3D) (s : State) :
  new o s
  = Ok (length (store s)) (with_store_calls s (store s ++ [o]) [call_new (payload o)]).
Proof. reflexivity. Qed.

Lemma update_eq (r : Ref) (f : Object3D -> Object3D) (s : State) :
  update r f s = Ok tt (with_store s (alter f r (store s))).
Proof. reflexivity. Qed.

Lemma defined_eq {A} (what : string) (f : State -> option A) (s : State) (a : A) :
  f s = Some a -> defined what f s = Ok a s.
Proof. unfold defined. intros ->. reflexivity. Qed.

(** Adding an object that has no parent yet. *)
Lemma Object3D_add_orphan (this object : Ref) (o : Object3D) (s : State) :
  object <> this -> store s !! object = Some o -> parent o = None ->
  Object3D_add this object s
  = Ok tt (with_store_calls s
             (alter (push_child object) this
                (alter (set_parent (Some this)) object (store s)))
             [call_add this object]).
Proof.
  intros Hne Ho Hp. unfold Object3D_add.
  destruct (decide (object = this)) as [| _]; [contradiction |].
  unfold bind at 1. unfold log, modify.
  unfold bind at 1. unfold gets at 1. cbn [store]. rewrite Ho, Hp.
  unfold bind, ret. rewrite !update_eq. reflexivity.
Qed.

Lemma alter_last (f : Object3D -> Object3D) (h : list Object3D) (o : Object3D) :
  alter f (length h) (h ++ [o]) = h ++ [f o].
Proof.
  rewrite <- (Nat.add_0_r (length h)) at 1. rewrite alter_app_r. reflexivity.
Qed.

(** One light of [setUpLight]: allocated, positioned and added to the scene,
    it ends up as the last object of the store and the last child of the
    scene. *)
Lemma add_light_object {A} (s : State) (sc : Ref) (p : Payload) (x y z : float)
    (k : JS A) :
  scene s = Some sc -> sc < length (store s) ->
  (l <- new (Object3D_default p) ;;
   update l (set_position x y z) ;;
   sc <- defined "scene" scene ;;
   Object3D_add sc l ;;
   k) s
  = k (with_store_calls s
         (alter (push_child (length (store s))) sc (store s)
          ++ [mkObject3D (Some sc) [] (mkVector3 x y z) (mkEuler 0 0 0)
                         (mkVector3 1 1 1) p])
         [call_new p; call_add sc (length (store s))]).
Proof.
  intros Hs Hsc. unfold bind.
  rewrite new_eq, update_eq. unfold with_store, with_store_calls.
  cbn [store scene camera model renderer pending body calls].
  rewrite alter_last.
  rewrite (defined_eq _ _ _ sc) by exact Hs.
  rewrite (Object3D_add_orphan sc (length (store s))
             (set_position x y z (Object3D_default p))).
  - unfold with_store_calls.
    cbn [store scene camera model renderer pending body calls].
    rewrite alter_last, alter_app_l by assumption.
    rewrite <- app_assoc. reflexivity.
  - lia.
  - apply list_lookup_middle. reflexivity.
  - reflexivity.
Qed.

(** Whenever [scene] names an object of the store, [setUpLight] returns the
    scene, allocates three objects, the ambient light and the two
    directional ones, and appends them to the scene's children; nothing else
    changes. *)
Lemma setUpLight_adds (s : State) (sc : Ref) :
  scene s = Some sc -> sc < length (store s) ->
  let n := length (store s) in
  setUpLight s
  = Ok sc (with_store_calls s
             (alter (fun o => set_children (children o ++ [n; S n; S (S n)]) o)
                    sc (store s)
              ++ [light_object sc MODEL_Z (AmbientLight AMBIENT_COLOR LIGHT_INTENSITY);
                  light_object sc (MODEL_Z + 1)
                    (DirectionalLight DIRECTIONAL_COLOR LIGHT_INTENSITY);
                  light_object sc (MODEL_Z - 1)
                    (DirectionalLight DIRECTIONAL_COLOR LIGHT_INTENSITY)])
             (setUpLight_calls sc n)).
Proof.
  intros Hs Hsc n. unfold setUpLight.
  do 3 (rewrite (add_light_object _ sc)
          by (unfold with_store_calls; cbn [store scene];
              first [assumption
                    | repeat (rewrite length_app || rewrite length_alter);
                      cbn [length]; lia])).
  rewrite (defined_eq _ _ _ sc) by exact Hs.
  unfold with_store_calls, setUpLight_calls.
  cbn [store scene camera model renderer pending body calls].
  repeat (rewrite length_app || rewrite length_alter). cbn [length].
  rewrite <- !(app_assoc (calls s)). cbn [app].
  replace (length (store s) + 1)%nat with (S n) by (subst n; lia).
  replace (S n + 1)%nat with (S (S n)) by lia.
  fold n. f_equal. f_equal.
  rewrite !alter_app_l
    by (repeat (rewrite length_app || rewrite length_alter); cbn [length]; lia).
  rewrite !list_alter_alter_eq.
  rewrite <- !app_assoc. cbn [app]. f_equal.
  apply list_alter_ext; [| reflexivity].
  intros o _. destruct o as [po co ps ro so pl].
  unfold push_child, set_children, compose. cbn.
  rewrite <- !app_assoc. cbn [app]. subst n.
  repeat f_equal; lia.
Qed.

(** ** The animation step *)

(** C1. In any state the program can be in with the model present, and for
    every time [0 <= time], [animate time] returns and leaves the model's
    rotation about X at [time / 2000] and about Y at [time / 1000], the
    quotients of JavaScript's Number division, with nothing else applied to
    them; for [time = 0] these are [0] and [0], for [time = 2000] they are
    [1] and [2]. *)
Theorem animate_rotation_formula (w : Window) (es : list Event) (s : State)
    (time : float) :
  program w es initial = Ok tt s ->
  is_Some (model s) ->
  (0 <=? time) = true ->
  exists s' o,
    animate time s = Ok tt s' /\ the_model s' = Some o /\
    e_x (rotation o) = time / 2000 /\
    e_y (rotation o) = time / 1000 /\
    (time = 0 -> e_x (rotation o) = 0 /\ e_y (rotation o) = 0) /\
    (time = 2000 -> e_x (rotation o) = 1 /\ e_y (rotation o) = 2).
Proof.
  intros Hp [m Hm] _.
  destruct (program_reached w es s Hp) as [fs Hfs | fs rx ry nodes Hfs].
  - discriminate Hm.
  - rewrite animate_loaded.
    eexists _, (model_object (time / 2000) (time / 1000) (length nodes)).
    do 4 (split; [reflexivity |]).
    split; intros ->; split; reflexivity.
Qed.

Lemma animate_rotation_formula_witness :
  exists s' o,
    animate 2000 (loaded (mkWindow 1920 1080) [] 0 0 [Object3D_default Mesh])
    = Ok tt s' /\ the_model s' = Some o /\
    e_x (rotation o) = 2000 / 2000 /\
    e_y (rotation o) = 2000 / 1000 /\
    (2000 = 0 -> e_x (rotation o) = 0 /\ e_y (rotation o) = 0) /\
    (2000 = 2000 -> e_x (rotation o) = 1 /\ e_y (rotation o) = 2).
Proof.
  apply (animate_rotation_formula (mkWindow 1920 1080)
           [GLTFLoaded [Object3D_default Mesh]]).
  - reflexivity.
  - exists 5%nat. reflexivity.
  - reflexivity.
Defined.

(** C2. In any state the program can be in, [animate time] returns without
    throwing and draws exactly one more frame, whether or not the model is
    there; while the model is absent it leaves the whole store, hence every
    rotation, as it was. *)
Theorem animate_without_model (w : Window) (es : list Event) (s : State)
    (time : float) :
  program w es initial = Ok tt s ->
  exists s' f,
    animate time s = Ok tt s' /\
    drawn s' = drawn s ++ [f] /\
    (model s = None -> store s' = store s /\ model s' = None).
Proof.
  intros Hp.
  destruct (program_reached w es s Hp) as [fs Hfs | fs rx ry nodes Hfs].
  - rewrite animate_loading. eexists _, _. repeat split.
  - rewrite animate_loaded. eexists _, _. repeat split; discriminate.
Qed.

Lemma animate_without_model_witness :
  exists s' f,
    animate 16 (loading (mkWindow 1920 1080) []) = Ok tt s' /\
    drawn s' = drawn (loading (mkWindow 1920 1080) []) ++ [f] /\
    (model (loading (mkWindow 1920 1080) []) = None ->
     store s' = store (loading (mkWindow 1920 1080) []) /\ model s' = None).
Proof.
  apply (animate_without_model (mkWindow 1920 1080) []). reflexivity.
Defined.

(** ** Scene composition *)

(** C3. When [setUpLight] returns (after [createScene] and
    [configureCamera], as in [init]) the lights of the scene are exactly
    three: an ambient light at the anchor (0, 10, 10), then two directional
    lights at (0, 10, 11) and (0, 10, 9), that is the anchor moved by +1 and
    by -1 along z only; the directional lights share one colour and one
    intensity, and their colour is not the ambient light's.  No other light
    exists anywhere: these three are all the lights of the store, they are
    the scene's only children, each has the scene as parent and none has
    children of its own. *)
Theorem setUpLight_three_lights (w : Window) :
  exists s sc a d1 d2 c i,
    (createScene ;; configureCamera w ;; setUpLight) initial = Ok sc s /\
    scene s = Some sc /\
    scene_lights s = [a; d1; d2] /\
    payload a = AmbientLight AMBIENT_COLOR LIGHT_INTENSITY /\
    position a = mkVector3 0 10 10 /\
    position a = mkVector3 MODEL_X MODEL_Y MODEL_Z /\
    payload d1 = DirectionalLight c i /\
    payload d2 = DirectionalLight c i /\
    c <> AMBIENT_COLOR /\
    light_color d1 = light_color d2 /\
    light_intensity d1 = light_intensity d2 /\
    light_color d1 <> light_color a /\
    position d1 = mkVector3 0 10 11 /\
    position d2 = mkVector3 0 10 9 /\
    position d1 = mkVector3 (v_x (position a)) (v_y (position a)) (v_z (position a) + 1) /\
    position d2 = mkVector3 (v_x (position a)) (v_y (position a)) (v_z (position a) - 1) /\
    List.filter is_light (store s) = [a; d1; d2] /\
    omap (fun r => store s !! r) (scene_children s) = [a; d1; d2] /\
    length (scene_children s) = 3%nat /\
    Forall (fun l => parent l = Some sc /\ children l = []) [a; d1; d2].
Proof.
  exists (lit w), 0%nat, ambientLight, directionalLight, directionalLight2.
  exists DIRECTIONAL_COLOR, LIGHT_INTENSITY.
  split; [apply setUpLight_lit |].
  repeat match goal with |- _ /\ _ => split end; try reflexivity;
    try (intros H; vm_compute in H; discriminate H).
  repeat constructor.
Qed.

(** C4. On any state, [configureCamera] makes [camera] a perspective camera
    with field of view 45, near plane 1, far plane 1000, aspect ratio
    [innerWidth / innerHeight] of the window, placed at (0, 10, 17). *)
Theorem configureCamera_builds_camera (w : Window) (s : State) :
  exists s' o,
    configureCamera w s = Ok tt s' /\
    the_camera s' = Some o /\
    payload o = PerspectiveCamera 45 (innerWidth w / innerHeight w) 1 1000 /\
    position o = mkVector3 0 10 17.
Proof.
  destruct s as [sc cam m rd h p b cs].
  unfold configureCamera, new, update, set_camera, set_store, defined, gets,
    modify, bind, ret; cbn.
  eexists _, _. split; [reflexivity |].
  unfold the_camera, object_of; cbn.
  rewrite list_lookup_alter_eq, list_lookup_middle by reflexivity.
  repeat split.
Qed.

(** C10. Wherever [setUpLight] runs with [scene] bound to an object, the
    three objects it creates are an ambient light and two directional lights
    built with the same intensity, [LIGHT_INTENSITY] = 5. *)
Theorem lights_same_intensity (s : State) (sc : Ref) :
  scene s = Some sc -> sc < length (store s) ->
  exists s' a d1 d2,
    setUpLight s = Ok sc s' /\
    drop (length (store s)) (store s') = [a; d1; d2] /\
    payload a = AmbientLight AMBIENT_COLOR 5 /\
    payload d1 = DirectionalLight DIRECTIONAL_COLOR 5 /\
    payload d2 = DirectionalLight DIRECTIONAL_COLOR 5 /\
    light_intensity a = Some LIGHT_INTENSITY /\
    light_intensity d1 = light_intensity a /\
    light_intensity d2 = light_intensity a.
Proof.
  intros Hs Hsc. rewrite (setUpLight_adds s sc Hs Hsc).
  eexists _, (light_object sc MODEL_Z _), (light_object sc (MODEL_Z + 1) _),
    (light_object sc (MODEL_Z - 1) _).
  split; [reflexivity |].
  split; [| repeat split].
  unfold with_store_calls. cbn [store].
  apply drop_app_length'. rewrite length_alter. reflexivity.
Qed.

Lemma lights_same_intensity_witness :
  exists s' a d1 d2,
    setUpLight (mkState (Some 0%nat) (Some 1%nat) None None
                  [scene_object []; camera_object (mkWindow 800 600)] [] [] [])
    = Ok 0%nat s' /\
    drop 2 (store s') = [a; d1; d2] /\
    payload a = AmbientLight AMBIENT_COLOR 5 /\
    payload d1 = DirectionalLight DIRECTIONAL_COLOR 5 /\
    payload d2 = DirectionalLight DIRECTIONAL_COLOR 5 /\
    light_intensity a = Some LIGHT_INTENSITY /\
    light_intensity d1 = light_intensity a /\
    light_intensity d2 = light_intensity a.
Proof.
  apply (lights_same_intensity
           (mkState (Some 0%nat) (Some 1%nat) None None
              [scene_object []; camera_object (mkWindow 800 600)] [] [] []) 0%nat).
  - reflexivity.
  - cbn. lia.
Defined.

(** ** Loading the model *)


(** ** Start-up *)

(** C6. [init] runs [createScene], [configureCamera], [setUpLight],
    [addModel] and [renderScene] in this order, each from the state the
    previous one left: the scene exists before the camera, the camera before
    the lights, the three lights before the load is started, the load is
    started (and still pending, with no model) before the renderer exists,
    and only the last step registers [animate] as the animation loop, with
    no frame drawn yet.  The requests [init] makes to Three.js and to the
    page are those of the five steps, one step after the other: the scene
    and its texture, the camera, each light followed by its [scene.add], the
    load of the model, and last the renderer, its size, the animation loop
    and the canvas.  Every frame drawn afterwards shows the scene with its
    three lights through the configured camera. *)
Theorem init_order (w : Window) :
  exists s1 s2 s3 s4 s5 sc,
    createScene initial = Ok tt s1 /\
    configureCamera w s1 = Ok tt s2 /\
    setUpLight s2 = Ok sc s3 /\
    addModel s3 = Ok tt s4 /\
    renderScene w s4 = Ok tt s5 /\
    init w initial = Ok tt s5 /\
    (is_Some (scene s1) /\ camera s1 = None) /\
    (is_Some (the_camera s2) /\ scene_lights s2 = []) /\
    (length (scene_lights s3) = 3%nat /\ pending s3 = []) /\
    (pending s4 = [MODEL_GLTF_PATH] /\ model s4 = None /\ renderer s4 = None) /\
    (animationLoop <$> renderer s5 = Some (Some cb_animate) /\ drawn s5 = []) /\
    (forall time, dispatch (AnimationFrame time) s4 = Ok tt s4) /\
    (forall es, exists s, run es s5 = Ok tt s /\ Forall (frame_ok w) (drawn s)) /\
    calls initial = [] /\
    calls s1 = [call_new (Scene None);
                call_TextureLoader_load "materials/space.jpg"] /\
    calls s2 = calls s1
               ++ [call_new (PerspectiveCamera 45 (innerWidth w / innerHeight w)
                               1 1000)] /\
    calls s3 = calls s2
               ++ [call_new (AmbientLight 0xffffff 5); call_add 0 2;
                   call_new (DirectionalLight 0xffd700 5); call_add 0 3;
                   call_new (DirectionalLight 0xffd700 5); call_add 0 4] /\
    calls s4 = calls s3 ++ [call_GLTFLoader_load "materials/shine.gltf"] /\
    calls s5 = calls s4
               ++ [call_WebGLRenderer true;
                   call_setSize (innerWidth w) (innerHeight w);
                   call_setAnimationLoop cb_animate; call_appendChild Canvas] /\
    calls (final (init w initial))
    = [call_new (Scene None);
       call_TextureLoader_load "materials/space.jpg";
       call_new (PerspectiveCamera 45 (innerWidth w / innerHeight w) 1 1000);
       call_new (AmbientLight 0xffffff 5); call_add 0 2;
       call_new (DirectionalLight 0xffd700 5); call_add 0 3;
       call_new (DirectionalLight 0xffd700 5); call_add 0 4;
       call_GLTFLoader_load "materials/shine.gltf";
       call_WebGLRenderer true;
       call_setSize (innerWidth w) (innerHeight w);
       call_setAnimationLoop cb_animate; call_appendChild Canvas].
Proof.
  exists (mkState (Some 0%nat) None None None [scene_object []] [] []
            createScene_calls).
  exists (mkState (Some 0%nat) (Some 1%nat) None None
            [scene_object []; camera_object w] [] []
            (createScene_calls ++ configureCamera_calls w)).
  exists (lit w).
  exists (mkState (Some 0%nat) (Some 1%nat) None None (loading_store w)
            [MODEL_GLTF_PATH] []
            (createScene_calls ++ configureCamera_calls w ++ setUpLight_calls 0 2
             ++ addModel_calls)).
  exists (loading w []), 0%nat.
  do 5 (split; [reflexivity |]).
  split; [apply init_loading |].
  split; [split; [eexists |]; reflexivity |].
  split; [split; [eexists |]; reflexivity |].
  do 3 (split; [repeat split |]).
  split; [reflexivity |].
  split.
  { intros es.
    destruct (run_reached w es (loading w [])) as (s & Hr & Hs).
    { constructor. constructor. }
    exists s. split; [exact Hr |].
    destruct Hs as [fs Hfs | fs rx ry nodes Hfs]; exact Hfs. }
  do 6 (split; [reflexivity |]).
  rewrite init_loading. reflexivity.
Qed.

(** ** What a frame leaves alone *)

(** C7. In every state the program reaches after [init], the camera and the
    three lights are the objects [init] left, and [animate] returns with the
    camera (field of view, aspect, clip planes, position) and every light
    (colour, intensity, position) unchanged. *)
Theorem camera_and_lights_immutable (w : Window) (es : list Event)
    (s0 s : State) (time : float) :
  init w initial = Ok tt s0 ->
  program w es initial = Ok tt s ->
  the_camera s = the_camera s0 /\
  scene_lights s = scene_lights s0 /\
  exists s',
    animate time s = Ok tt s' /\
    the_camera s' = the_camera s /\
    scene_lights s' = scene_lights s.
Proof.
  intros H0 Hp. rewrite init_loading in H0. injection H0 as <-.
  pose proof (program_reached w es s Hp) as Hs.
  destruct (animate_reached w s time Hs) as (s' & f & Ha & Hs' & _).
  destruct (reached_inv w s Hs) as (_ & _ & Hc & Hl & _).
  destruct (reached_inv w s' Hs') as (_ & _ & Hc' & Hl' & _).
  split; [exact Hc |]. split; [exact Hl |].
  exists s'. split; [exact Ha |]. split; congruence.
Qed.

Lemma camera_and_lights_immutable_witness :
  the_camera (loaded (mkWindow 800 600) [] 0 0 [])
  = the_camera (loading (mkWindow 800 600) []) /\
  scene_lights (loaded (mkWindow 800 600) [] 0 0 [])
  = scene_lights (loading (mkWindow 800 600) []) /\
  exists s',
    animate 1000 (loaded (mkWindow 800 600) [] 0 0 []) = Ok tt s' /\
    the_camera s' = the_camera (loaded (mkWindow 800 600) [] 0 0 []) /\
    scene_lights s' = scene_lights (loaded (mkWindow 800 600) [] 0 0 []).
Proof.
  apply (camera_and_lights_immutable (mkWindow 800 600) [GLTFLoaded []]);
    reflexivity.
Defined.

(** C8. After [animate time] with the model present, the model's rotation
    is [(time / 2000, time / 1000, 0)] whatever happened before: two runs of
    the program with different histories agree on it. *)
Theorem rotation_is_function_of_time (w : Window) (es1 es2 : list Event)
    (s1 s2 : State) (time : float) :
  program w es1 initial = Ok tt s1 ->
  program w es2 initial = Ok tt s2 ->
  is_Some (model s1) ->
  is_Some (model s2) ->
  exists s1' s2',
    animate time s1 = Ok tt s1' /\
    animate time s2 = Ok tt s2' /\
    model_rotation s1' = model_rotation s2' /\
    model_rotation s1' = Some (mkEuler (time / 2000) (time / 1000) 0).
Proof.
  intros H1 H2 [m1 Hm1] [m2 Hm2].
  destruct (program_reached w es1 s1 H1) as [fs1 Hfs1 | fs1 rx1 ry1 nodes1 Hfs1];
    [discriminate Hm1 |].
  destruct (program_reached w es2 s2 H2) as [fs2 Hfs2 | fs2 rx2 ry2 nodes2 Hfs2];
    [discriminate Hm2 |].
  rewrite !animate_loaded. eexists _, _. repeat split.
Qed.

Lemma rotation_is_function_of_time_witness :
  exists s1' s2',
    animate 3000 (loaded (mkWindow 800 600) [] 0 0 []) = Ok tt s1' /\
    animate 3000
      (loaded (mkWindow 800 600) [mkFrame 0 1 (loaded_store (mkWindow 800 600) 0.25 0.5 [])]
              0.25 0.5 [])
    = Ok tt s2' /\
    model_rotation s1' = model_rotation s2' /\
    model_rotation s1' = Some (mkEuler (3000 / 2000) (3000 / 1000) 0).
Proof.
  apply (rotation_is_function_of_time (mkWindow 800 600)
           [GLTFLoaded []] [GLTFLoaded []; AnimationFrame 500]).
  - reflexivity.
  - reflexivity.
  - exists 5%nat. reflexivity.
  - exists 5%nat. reflexivity.
Defined.

(** C9. With the model present, [animate] returns and the model keeps its
    rotation about Z, its position and its scale: they are what the load
    callback left, namely 0, the anchor (0, 10, 10) and 0.5 on every axis;
    parent, children and kind of the model are kept as well. *)
Theorem animate_touches_only_rotation_xy (w : Window) (es : list Event)
    (s : State) (time : float) (m : Ref) :
  program w es initial = Ok tt s ->
  model s = Some m ->
  exists s' o o',
    animate time s = Ok tt s' /\
    model s' = Some m /\
    store s !! m = Some o /\
    store s' !! m = Some o' /\
    e_z (rotation o') = e_z (rotation o) /\ e_z (rotation o) = 0 /\
    position o' = position o /\ position o = mkVector3 0 10 10 /\
    scale o' = scale o /\ scale o = mkVector3 0.5 0.5 0.5 /\
    parent o' = parent o /\ children o' = children o /\ payload o' = payload o.
Proof.
  intros Hp Hm.
  pose proof (program_reached w es s Hp) as Hs.
  destruct (animate_reached w s time Hs) as (s' & f & Ha & _).
  destruct (reached_inv w s Hs) as (_ & _ & _ & _ & [Hn | (H5 & rx & ry & n & Ho)]);
    [congruence |].
  assert (m = 5%nat) as -> by congruence.
  pose proof (animate_model s time 5%nat _ Hm Ho) as Ho'.
  pose proof (animate_bindings s time) as (_ & _ & Hm').
  rewrite Ha in Ho', Hm'. cbn [final] in Ho', Hm'.
  eexists s', _, _. split; [exact Ha |]. split; [congruence |].
  split; [exact Ho |]. split; [exact Ho' |]. repeat split.
Qed.

Lemma animate_touches_only_rotation_xy_witness :
  exists s' o o',
    animate 2000 (loaded (mkWindow 800 600) [] 0 0 []) = Ok tt s' /\
    model s' = Some 5%nat /\
    store (loaded (mkWindow 800 600) [] 0 0 []) !! 5%nat = Some o /\
    store s' !! 5%nat = Some o' /\
    e_z (rotation o') = e_z (rotation o) /\ e_z (rotation o) = 0 /\
    position o' = position o /\ position o = mkVector3 0 10 10 /\
    scale o' = scale o /\ scale o = mkVector3 0.5 0.5 0.5 /\
    parent o' = parent o /\ children o' = children o /\ payload o' = payload o.
Proof.
  apply (animate_touches_only_rotation_xy (mkWindow 800 600) [GLTFLoaded []]);
    reflexivity.
Defined.

(** ** The set-up functions on any state *)

Lemma createScene_eq (s : State) :
  createScene s
  = Ok tt (mkState (Some (length (store s))) (camera s) (model s) (renderer s)
             (store s ++ [scene_object []]) (pending s) (body s)
             (calls s ++ createScene_calls)).
Proof.
  unfold createScene, bind. rewrite new_eq.
  unfold set_scene, log, modify. unfold with_store_calls.
  cbn [scene camera model renderer store pending body calls].
  erewrite defined_eq by reflexivity.
  rewrite update_eq. unfold with_store.
  cbn [scene camera model renderer store pending body calls].
  rewrite alter_last, <- app_assoc. reflexivity.
Qed.

Lemma configureCamera_eq (w : Window) (s : State) :
  configureCamera w s
  = Ok tt (mkState (scene s) (Some (length (store s))) (model s) (renderer s)
             (store s ++ [camera_object w]) (pending s) (body s)
             (calls s ++ configureCamera_calls w)).
Proof.
  unfold configureCamera, bind. rewrite new_eq.
  unfold set_camera, modify. unfold with_store_calls.
  cbn [scene camera model renderer store pending body calls].
  erewrite defined_eq by reflexivity.
  rewrite update_eq. unfold with_store.
  cbn [scene camera model renderer store pending body calls].
  rewrite alter_last. reflexivity.
Qed.

(** X1. On any state, [createScene] returns and binds [scene] to a new
    object, the last of the store: a scene without parent or children whose
    background is the texture of "materials/space.jpg".  The objects that
    existed and the other bindings are left as they were (a scene bound
    before is no longer the scene). *)
Theorem createScene_fresh_scene (s : State) :
  exists s' o,
    createScene s = Ok tt s' /\
    scene s' = Some (length (store s)) /\
    store s' = store s ++ [o] /\
    payload o = Scene (Some (TextureOf "materials/space.jpg")) /\
    parent o = None /\ children o = [] /\
    scene_children s' = [] /\
    scene_lights s' = [] /\
    camera s' = camera s /\ model s' = model s /\ renderer s' = renderer s /\
    pending s' = pending s /\ body s' = body s.
Proof.
  rewrite createScene_eq. eexists _, (scene_object []).
  split; [reflexivity |].
  unfold scene_children, scene_lights, lights_in, children_in.
  cbn [scene camera model renderer store pending body calls].
  rewrite list_lookup_middle by reflexivity.
  repeat split.
Qed.

Lemma addModel_eq (s : State) :
  addModel s
  = Ok tt (mkState (scene s) (camera s) (model s) (renderer s) (store s)
             (pending s ++ [MODEL_GLTF_PATH]) (body s)
             (calls s ++ addModel_calls)).
Proof. reflexivity. Qed.

Lemma renderScene_eq (w : Window) (s : State) :
  renderScene w s
  = Ok tt (mkState (scene s) (camera s) (model s) (Some (the_renderer w []))
             (store s) (pending s) (body s ++ [Canvas])
             (calls s ++ renderScene_calls w)).
Proof.
  unfold renderScene, log, set_renderer, set_body, defined, gets, modify, bind.
  cbn [scene camera model renderer store pending body calls].
  rewrite <- !app_assoc. reflexivity.
Qed.

Lemma alter_middle (f : Object3D -> Object3D) (h l : list Object3D) (o : Object3D) :
  alter f (length h) (h ++ o :: l) = h ++ f o :: l.
Proof.
  rewrite <- (Nat.add_0_r (length h)) at 1. rewrite alter_app_r. reflexivity.
Qed.

(** X2. [init] never throws, whatever state it starts from: it appends to
    the store a scene, a camera and the three lights, in this order, makes
    the lights the scene's children, binds [scene] and [camera] to the new
    objects, queues one load of "materials/shine.gltf", installs a new
    renderer with [animate] as its loop and no frame drawn, and appends one
    canvas to the page.  The [model] binding and the objects that existed
    are not touched, and the requests it makes are those of [createScene],
    [configureCamera], [setUpLight], [addModel] and [renderScene], in this
    order. *)
Theorem init_from_any_state (w : Window) (s : State) :
  let n := length (store s) in
  init w s
  = Ok tt (mkState (Some n) (Some (S n)) (model s) (Some (the_renderer w []))
             (store s ++
              [scene_object [S (S n); S (S (S n)); S (S (S (S n)))];
               camera_object w;
               light_object n MODEL_Z (AmbientLight AMBIENT_COLOR LIGHT_INTENSITY);
               light_object n (MODEL_Z + 1)
                 (DirectionalLight DIRECTIONAL_COLOR LIGHT_INTENSITY);
               light_object n (MODEL_Z - 1)
                 (DirectionalLight DIRECTIONAL_COLOR LIGHT_INTENSITY)])
             (pending s ++ ["materials/shine.gltf"%string]) (body s ++ [Canvas])
             (calls s ++ init_calls w n)).
Proof.
  intros n. unfold init, bind.
  rewrite createScene_eq, configureCamera_eq.
  cbn [scene camera model renderer store pending body calls].
  rewrite (setUpLight_adds _ n)
    by (cbn [scene store]; [reflexivity || (rewrite !length_app; cbn [length]; lia)]).
  rewrite addModel_eq, renderScene_eq. unfold with_store_calls.
  cbn [scene camera model renderer store pending body calls].
  rewrite !length_app. cbn [length]. subst n.
  replace (length (store s) + 1 + 1)%nat with (S (S (length (store s)))) by lia.
  replace (length (store s) + 1)%nat with (S (length (store s))) by lia.
  rewrite <- (app_assoc (store s) [scene_object []] [camera_object w]).
  cbn [app]. rewrite alter_middle.
  rewrite <- (app_assoc (store s)). cbn [app].
  unfold init_calls. rewrite <- !(app_assoc (calls s)).
  reflexivity.
Qed.

(** X3. Wherever [scene] names an object [so] of the store, [setUpLight]
    returns that scene; the store grows by exactly three objects, the
    ambient light at the anchor and the directional lights one unit before
    and behind it, each with the scene as parent; the scene keeps its
    children and gets the three new objects after them, in this order;
    every other object and every binding is left alone. *)
Theorem setUpLight_on_any_scene (s : State) (sc : Ref) (so : Object3D) :
  scene s = Some sc -> store s !! sc = Some so ->
  exists s',
    setUpLight s = Ok sc s' /\
    let n := length (store s) in
    length (store s') = (n + 3)%nat /\
    store s' !! sc = Some (set_children (children so ++ [n; S n; S (S n)]) so) /\
    (forall r, r <> sc -> r < n -> store s' !! r = store s !! r) /\
    store s' !! n
    = Some (light_object sc 10 (AmbientLight AMBIENT_COLOR LIGHT_INTENSITY)) /\
    store s' !! S n
    = Some (light_object sc 11 (DirectionalLight DIRECTIONAL_COLOR LIGHT_INTENSITY)) /\
    store s' !! S (S n)
    = Some (light_object sc 9 (DirectionalLight DIRECTIONAL_COLOR LIGHT_INTENSITY)) /\
    scene s' = scene s /\ camera s' = camera s /\ model s' = model s /\
    renderer s' = renderer s /\ pending s' = pending s /\ body s' = body s.
Proof.
  intros Hs Ho. pose proof (lookup_lt_Some _ _ _ Ho) as Hsc.
  rewrite (setUpLight_adds s sc Hs Hsc).
  eexists. split; [reflexivity |]. intros n. unfold with_store_calls.
  cbn [scene camera model renderer store pending body].
  split; [rewrite length_app, length_alter; reflexivity |].
  split.
  { rewrite lookup_app_l by (rewrite length_alter; exact Hsc).
    rewrite list_lookup_alter_eq, Ho. reflexivity. }
  split.
  { intros r Hr Hrn. rewrite lookup_app_l by (rewrite length_alter; exact Hrn).
    apply list_lookup_alter_ne. congruence. }
  split.
  { rewrite lookup_app_r by (rewrite length_alter; reflexivity).
    rewrite length_alter. fold n. rewrite Nat.sub_diag. reflexivity. }
  split.
  { rewrite lookup_app_r by (rewrite length_alter; fold n; lia).
    rewrite length_alter. fold n.
    replace (S n - n)%nat with 1%nat by lia. reflexivity. }
  split.
  { rewrite lookup_app_r by (rewrite length_alter; fold n; lia).
    rewrite length_alter. fold n.
    replace (S (S n) - n)%nat with 2%nat by lia. reflexivity. }
  repeat split.
Qed.

Lemma setUpLight_on_any_scene_witness :
  exists s',
    setUpLight (mkState (Some 1%nat) None None None
                  [Object3D_default Mesh; scene_object [0%nat]] [] [] [])
    = Ok 1%nat s' /\
    let n := 2%nat in
    length (store s') = (n + 3)%nat /\
    store s' !! 1%nat
    = Some (set_children (children (scene_object [0%nat]) ++ [n; S n; S (S n)])
              (scene_object [0%nat])) /\
    (forall r, r <> 1%nat -> r < n ->
       store s' !! r = [Object3D_default Mesh; scene_object [0%nat]] !! r) /\
    store s' !! n
    = Some (light_object 1 10 (AmbientLight AMBIENT_COLOR LIGHT_INTENSITY)) /\
    store s' !! S n
    = Some (light_object 1 11 (DirectionalLight DIRECTIONAL_COLOR LIGHT_INTENSITY)) /\
    store s' !! S (S n)
    = Some (light_object 1 9 (DirectionalLight DIRECTIONAL_COLOR LIGHT_INTENSITY)) /\
    scene s' = Some 1%nat /\ camera s' = None /\ model s' = None /\
    renderer s' = None /\ pending s' = [] /\ body s' = [].
Proof.
  apply (setUpLight_on_any_scene
           (mkState (Some 1%nat) None None None
              [Object3D_default Mesh; scene_object [0%nat]] [] [] [])
           1%nat (scene_object [0%nat])); reflexivity.
Defined.

(** X4. With [scene] still undefined, [setUpLight] throws a TypeError at its
    first [scene.add]: the ambient light has been created and positioned but
    has no parent, no directional light exists, and nothing else changed.
    So [setUpLight] cannot run before [createScene]. *)
Theorem setUpLight_needs_scene (s : State) :
  scene s = None ->
  exists what s' a,
    setUpLight s = Throw (TypeError what) s' /\
    store s' = store s ++ [a] /\
    payload a = AmbientLight AMBIENT_COLOR LIGHT_INTENSITY /\
    position a = mkVector3 0 10 10 /\
    parent a = None /\
    scene s' = None /\ camera s' = camera s /\ model s' = model s /\
    renderer s' = renderer s /\ pending s' = pending s /\ body s' = body s.
Proof.
  intros Hs. unfold setUpLight, bind at 1. rewrite new_eq.
  unfold bind at 1. rewrite update_eq. unfold with_store, with_store_calls.
  cbn [scene camera model renderer store pending body calls].
  rewrite alter_last. unfold bind, defined.
  cbn [scene camera model renderer store pending body calls]. rewrite Hs.
  eexists _, _, _. split; [reflexivity |].
  cbn [scene camera model renderer store pending body calls].
  repeat split.
Qed.

Lemma setUpLight_needs_scene_witness :
  exists what s' a,
    setUpLight initial = Throw (TypeError what) s' /\
    store s' = store initial ++ [a] /\
    payload a = AmbientLight AMBIENT_COLOR LIGHT_INTENSITY /\
    position a = mkVector3 0 10 10 /\
    parent a = None /\
    scene s' = None /\ camera s' = camera initial /\ model s' = model initial /\
    renderer s' = renderer initial /\ pending s' = pending initial /\
    body s' = body initial.
Proof. apply (setUpLight_needs_scene initial). reflexivity. Defined.

(** ** [animate] outside the running program *)

Lemma animate_rest (s : State) (time : float) :
  let s' := final (animate time s) in
  pending s' = pending s /\ body s' = body s.
Proof.
  destruct s as [sc cam m rd h p b cs].
  unfold animate, WebGLRenderer_render, update, set_store, set_renderer,
    defined, gets, modify, throw, bind, ret; cbn.
  destruct m as [m |], rd as [rd |], cam as [cr |], sc as [sr |]; cbn;
    try (split; reflexivity);
    match goal with
    | |- context [from_option is_camera false ?x] =>
        destruct (from_option is_camera false x); split; reflexivity
    end.
Qed.

Lemma animate_renderer (s : State) (time : float) :
  let s' := final (animate time s) in
  renderer_kept s s' /\ calls s' = calls s.
Proof.
  destruct s as [sc cam m rd h p b cs].
  unfold renderer_kept, animate, WebGLRenderer_render, update, set_store,
    set_renderer, defined, gets, modify, throw, bind, ret; cbn.
  destruct m as [m |], rd as [rd |], cam as [cr |], sc as [sr |]; cbn;
    try (repeat split; try reflexivity; left; reflexivity);
    match goal with
    | |- context [from_option is_camera false ?x] =>
        destruct (from_option is_camera false x); cbn;
          repeat split; try reflexivity;
          first [left; reflexivity | right; eexists _, _; repeat split]
    end.
Qed.

(** X5. On any state, and whether it returns or throws, [animate] leaves
    the [scene], [camera] and [model] bindings, the pending loads, the page
    and the requests made as they were; [renderer] stays undefined when it
    was, and otherwise stays bound to a renderer with the same settings and
    the same frames plus at most the one just drawn.  [animate] creates and
    deletes no object, leaves every object other than the model exactly as
    it was, and in the model writes only [rotation.x] and [rotation.y]. *)
Theorem animate_changes_only_the_model (s : State) (time : float) :
  let s' := final (animate time s) in
  scene s' = scene s /\ camera s' = camera s /\ model s' = model s /\
  pending s' = pending s /\ body s' = body s /\
  renderer_kept s s' /\ calls s' = calls s /\
  length (store s') = length (store s) /\
  (forall r, model s <> Some r -> store s' !! r = store s !! r) /\
  (forall m o, model s = Some m -> store s !! m = Some o ->
     store s' !! m
     = Some (mkObject3D (parent o) (children o) (position o)
                        (mkEuler (time / 2000) (time / 1000) (e_z (rotation o)))
                        (scale o) (payload o))).
Proof.
  intros s'. subst s'.
  destruct (animate_bindings s time) as (Hsc & Hcam & Hm).
  destruct (animate_rest s time) as (Hp & Hb).
  destruct (animate_renderer s time) as (Hrd & Hcs).
  do 7 (split; [assumption |]).
  split.
  { rewrite animate_store. destruct (model s); [| reflexivity].
    rewrite !length_alter. reflexivity. }
  split.
  { intros r Hr. apply animate_elsewhere. exact Hr. }
  intros m o Hmo Ho. apply (animate_model s time m o Hmo Ho).
Qed.

(** X6. While [renderer] is undefined, [animate] throws a TypeError, but
    only after the rotation has been written: a model that is present has
    got its two angles all the same, and no frame is drawn. *)
Theorem animate_needs_renderer (s : State) (time : float) :
  renderer s = None ->
  exists what s',
    animate time s = Throw (TypeError what) s' /\
    renderer s' = None /\ drawn s' = [] /\
    (model s = None -> store s' = store s) /\
    (forall m o, model s = Some m -> store s !! m = Some o ->
       exists o', store s' !! m = Some o' /\
         e_x (rotation o') = time / 2000 /\ e_y (rotation o') = time / 1000).
Proof.
  intros Hrd. destruct s as [sc cam m rd h p b cs]. cbn in Hrd. subst rd.
  unfold animate, update, set_store, defined, gets, modify, bind, ret.
  cbn [scene camera model renderer store pending body].
  destruct m as [m |]; cbn [scene camera model renderer store pending body].
  - eexists _, _. split; [reflexivity |].
    cbn [scene camera model renderer store pending body].
    split; [reflexivity |]. split; [reflexivity |].
    split; [discriminate |].
    intros m' o [= <-] Ho. eexists. split.
    + rewrite !list_lookup_alter_eq, Ho. reflexivity.
    + split; reflexivity.
  - eexists _, _. split; [reflexivity |].
    cbn [scene camera model renderer store pending body].
    split; [reflexivity |]. split; [reflexivity |].
    split; [reflexivity |]. discriminate.
Qed.

Lemma animate_needs_renderer_witness :
  exists what s',
    animate 2000 (mkState None None (Some 0%nat) None [Object3D_default Group] [] [] [])
    = Throw (TypeError what) s' /\
    renderer s' = None /\ drawn s' = [] /\
    (Some 0%nat = None -> store s' = [Object3D_default Group]) /\
    (forall m o, Some 0%nat = Some m -> [Object3D_default Group] !! m = Some o ->
       exists o', store s' !! m = Some o' /\
         e_x (rotation o') = 2000 / 2000 /\ e_y (rotation o') = 2000 / 1000).
Proof.
  apply (animate_needs_renderer
           (mkState None None (Some 0%nat) None [Object3D_default Group] [] [] [])).
  reflexivity.
Defined.

(** X7. The store after [animate] depends on the time of that call only:
    on any state, [animate t2] after [animate t1] leaves the same objects as
    [animate t2] alone, so nothing of an earlier frame survives a later
    one, and calling [animate] twice with one time is calling it once. *)
Theorem animate_last_call_wins (s : State) (t1 t2 : float) :
  store (final (animate t2 (final (animate t1 s))))
  = store (final (animate t2 s)).
Proof.
  rewrite !animate_store.
  destruct (animate_bindings s t1) as (_ & _ & ->).
  destruct (model s) as [m |]; [| reflexivity].
  rewrite !list_alter_alter_eq.
  apply list_alter_ext; [| reflexivity].
  intros o _. reflexivity.
Qed.

(** ** The load callback on any state *)

(** X8. Let [scene] name an object [so] and let [g], another object of the
    store without a parent, be the root the loader hands over.  Then the
    callback returns, [model] is [g], [g] has scale 0.5 on every axis,
    position (0, 10, 10) and the scene as parent while keeping its rotation,
    children and kind, the scene has [g] as its new last child, and no
    other object changes; no object is created. *)
Theorem addModel_onLoad_places_model (s : State) (sc g : Ref) (so o : Object3D) :
  scene s = Some sc -> store s !! sc = Some so ->
  g <> sc -> store s !! g = Some o -> parent o = None ->
  exists s',
    addModel_onLoad g s = Ok tt s' /\
    model s' = Some g /\
    store s' !! g
    = Some (mkObject3D (Some sc) (children o) (mkVector3 0 10 10) (rotation o)
                       (mkVector3 0.5 0.5 0.5) (payload o)) /\
    store s' !! sc = Some (set_children (children so ++ [g]) so) /\
    (forall r, r <> g -> r <> sc -> store s' !! r = store s !! r) /\
    length (store s') = length (store s) /\
    scene s' = scene s /\ camera s' = camera s /\ renderer s' = renderer s /\
    pending s' = pending s /\ body s' = body s.
Proof.
  intros Hs Hso Hne Ho Hp.
  unfold addModel_onLoad, bind, set_model, modify.
  erewrite defined_eq by reflexivity. rewrite update_eq.
  erewrite defined_eq by reflexivity. rewrite update_eq.
  unfold with_store. cbn [scene camera model renderer store pending body].
  erewrite defined_eq by exact Hs.
  unfold gets. cbn [scene camera model renderer store pending body].
  rewrite (Object3D_add_orphan sc g
             (set_position MODEL_X MODEL_Y MODEL_Z
                (set_scale MODEL_SCALE MODEL_SCALE MODEL_SCALE o))).
  - eexists. split; [reflexivity |]. unfold with_store_calls.
    cbn [scene camera model renderer store pending body calls].
    split; [reflexivity |].
    split.
    { rewrite list_lookup_alter_ne by congruence.
      rewrite !list_lookup_alter_eq, Ho. reflexivity. }
    split.
    { rewrite list_lookup_alter_eq.
      rewrite !list_lookup_alter_ne by congruence. rewrite Hso. reflexivity. }
    split.
    { intros r Hrg Hrs. rewrite !list_lookup_alter_ne by congruence. reflexivity. }
    split; [rewrite !length_alter; reflexivity |].
    repeat split.
  - exact Hne.
  - cbn [store]. rewrite !list_lookup_alter_eq, Ho. reflexivity.
  - exact Hp.
Qed.

Lemma addModel_onLoad_places_model_witness :
  exists s',
    addModel_onLoad 1
      (mkState (Some 0%nat) None None None
         [scene_object []; Object3D_default Group] [] [] [])
    = Ok tt s' /\
    model s' = Some 1%nat /\
    store s' !! 1%nat
    = Some (mkObject3D (Some 0%nat) (children (Object3D_default Group))
              (mkVector3 0 10 10) (rotation (Object3D_default Group))
              (mkVector3 0.5 0.5 0.5) (payload (Object3D_default Group))) /\
    store s' !! 0%nat
    = Some (set_children (children (scene_object []) ++ [1%nat]) (scene_object [])) /\
    (forall r, r <> 1%nat -> r <> 0%nat ->
       store s' !! r = [scene_object []; Object3D_default Group] !! r) /\
    length (store s') = 2%nat /\
    scene s' = Some 0%nat /\ camera s' = None /\ renderer s' = None /\
    pending s' = [] /\ body s' = [].
Proof.
  apply (addModel_onLoad_places_model
           (mkState (Some 0%nat) None None None
              [scene_object []; Object3D_default Group] [] [] [])
           0%nat 1%nat (scene_object []) (Object3D_default Group));
    first [reflexivity | discriminate].
Defined.

(** X9. If the callback runs while [scene] is undefined it throws a
    TypeError at [scene.add], after [model] has been bound to the root and
    the root scaled and positioned: the root is then in no scene. *)
Theorem addModel_onLoad_needs_scene (s : State) (g : Ref) (o : Object3D) :
  scene s = None -> store s !! g = Some o ->
  exists what s',
    addModel_onLoad g s = Throw (TypeError what) s' /\
    model s' = Some g /\
    store s' !! g
    = Some (mkObject3D (parent o) (children o) (mkVector3 0 10 10) (rotation o)
                       (mkVector3 0.5 0.5 0.5) (payload o)) /\
    (forall r, r <> g -> store s' !! r = store s !! r) /\
    scene s' = None.
Proof.
  intros Hs Ho.
  unfold addModel_onLoad, bind, set_model, modify.
  erewrite defined_eq by reflexivity. rewrite update_eq.
  erewrite defined_eq by reflexivity. rewrite update_eq.
  unfold with_store, defined. cbn [scene camera model renderer store pending body].
  rewrite Hs. eexists _, _. split; [reflexivity |].
  cbn [scene camera model renderer store pending body].
  split; [reflexivity |].
  split; [rewrite !list_lookup_alter_eq, Ho; reflexivity |].
  split; [| reflexivity].
  intros r Hr. rewrite !list_lookup_alter_ne by congruence. reflexivity.
Qed.

Lemma addModel_onLoad_needs_scene_witness :
  exists what s',
    addModel_onLoad 0 (mkState None None None None [Object3D_default Group] [] [] [])
    = Throw (TypeError what) s' /\
    model s' = Some 0%nat /\
    store s' !! 0%nat
    = Some (mkObject3D (parent (Object3D_default Group))
              (children (Object3D_default Group)) (mkVector3 0 10 10)
              (rotation (Object3D_default Group)) (mkVector3 0.5 0.5 0.5)
              (payload (Object3D_default Group))) /\
    (forall r, r <> 0%nat -> store s' !! r = [Object3D_default Group] !! r) /\
    scene s' = None.
Proof.
  apply (addModel_onLoad_needs_scene
           (mkState None None None None [Object3D_default Group] [] [] [])
           0%nat (Object3D_default Group)); reflexivity.
Defined.

(** ** The running program *)

Lemma dispatch_drawn (w : Window) (e : Event) (s : State) :
  reached w s ->
  exists s', dispatch e s = Ok tt s' /\ reached w s' /\
    length (drawn s') = (length (drawn s) + length (frame_events [e]))%nat.
Proof.
  intros Hs. destruct e as [time | nodes].
  - destruct (animate_reached w s time Hs) as (s' & f & Ha & Hs' & Hd & _).
    exists s'. split; [destruct Hs; exact Ha |]. split; [exact Hs' |].
    rewrite Hd, length_app. reflexivity.
  - destruct Hs as [fs Hfs | fs rx ry nodes0 Hfs].
    + rewrite load_loading. eexists. split; [reflexivity |].
      split; [constructor; exact Hfs |]. cbn. lia.
    + rewrite load_loaded. eexists. split; [reflexivity |].
      split; [constructor; exact Hfs |]. cbn. lia.
Qed.

Lemma run_drawn (w : Window) (es : list Event) (s : State) :
  reached w s ->
  exists s', run es s = Ok tt s' /\ reached w s' /\
    length (drawn s') = (length (drawn s) + length (frame_events es))%nat.
Proof.
  revert s. induction es as [| e es IH]; intros s Hs.
  - exists s. split; [reflexivity |]. split; [assumption |]. cbn. lia.
  - destruct (dispatch_drawn w e s Hs) as (s1 & He & Hs1 & Hd1).
    destruct (IH s1 Hs1) as (s2 & Hr & Hs2 & Hd2).
    exists s2. split; [cbn [run]; unfold bind; rewrite He; exact Hr |].
    split; [assumption |].
    rewrite Hd2, Hd1. unfold frame_events. cbn [List.filter].
    destruct (negb (is_load e)); cbn [length]; lia.
Qed.

(** X10. The program draws one frame per animation frame of the host, no
    more and no fewer: after any events, the number of frames drawn is the
    number of animation-frame events, whether they came before or after the
    model was loaded; a completed load draws nothing. *)
Theorem one_frame_per_animation_event (w : Window) (es : list Event) :
  exists s,
    program w es initial = Ok tt s /\
    length (drawn s) = length (frame_events es).
Proof.
  destruct (run_drawn w es (loading w [])) as (s & Hr & _ & Hd).
  { constructor. constructor. }
  exists s. split; [rewrite program_run; exact Hr | exact Hd].
Qed.

(** X11. Nothing after [init] touches the renderer's settings or the page:
    after any events the renderer is still antialiased, sized to the
    window's dimensions at start-up and looping on [animate], the page holds
    exactly one canvas, [scene] and [camera] name the objects [init] made,
    and at most the one load that [init] started is pending. *)
Theorem renderer_and_page_stable (w : Window) (es : list Event) :
  exists s rd,
    program w es initial = Ok tt s /\
    renderer s = Some rd /\
    antialias rd = true /\
    size rd = Some (innerWidth w, innerHeight w) /\
    animationLoop rd = Some cb_animate /\
    body s = [Canvas] /\
    scene s = Some 0%nat /\ camera s = Some 1%nat /\
    pending s = (if existsb is_load es then [] else ["materials/shine.gltf"%string]).
Proof.
  destruct (program_total w es) as (s & Hp & _).
  pose proof (program_loading w es s Hp) as Hs.
  exists s. destruct (existsb is_load es).
  - destruct Hs as (fs & rx & ry & nodes & ->).
    eexists. split; [exact Hp |]. repeat split.
  - destruct Hs as (fs & ->).
    eexists. split; [exact Hp |]. repeat split.
Qed.

(** ** A window without height *)

Lemma div_by_zero (x : float) :
  (0 <? x) = true -> x / 0 = infinity.
Proof.
  intros Hx. apply Prim2SF_inj. rewrite div_spec.
  rewrite ltb_spec in Hx.
  change (Prim2SF 0) with (S754_zero false) in *.
  change (Prim2SF infinity) with (S754_infinity false).
  destruct (Prim2SF x) as [sx | sx | | sx mx ex]; try discriminate Hx;
    destruct sx; try discriminate Hx; reflexivity.
Qed.

(** X12. [configureCamera] does not guard against a window of height 0: it
    still returns, and the camera's aspect ratio is then [+infinity] when the
    width is positive and NaN when the width is 0 as well. *)
Theorem camera_aspect_without_height (w : Window) (s : State) :
  innerHeight w = 0 ->
  exists s' o aspect,
    configureCamera w s = Ok tt s' /\
    the_camera s' = Some o /\
    payload o = PerspectiveCamera 45 aspect 1 1000 /\
    ((0 <? innerWidth w) = true -> aspect = infinity) /\
    (innerWidth w = 0 -> aspect = nan).
Proof.
  intros Hh. rewrite configureCamera_eq.
  eexists _, (camera_object w), (innerWidth w / innerHeight w).
  split; [reflexivity |]. split.
  { unfold the_camera, object_of. cbn [store camera].
    apply list_lookup_middle. reflexivity. }
  split; [reflexivity |]. rewrite Hh. split.
  - apply div_by_zero.
  - intros ->. reflexivity.
Qed.

Lemma camera_aspect_without_height_witness :
  exists s' o aspect,
    configureCamera (mkWindow 1920 0) initial = Ok tt s' /\
    the_camera s' = Some o /\
    payload o = PerspectiveCamera 45 aspect 1 1000 /\
    ((0 <? 1920) = true -> aspect = infinity) /\
    (1920 = 0 -> aspect = nan).
Proof.
  apply (camera_aspect_without_height (mkWindow 1920 0) initial). reflexivity.
Defined.
